(** * Word error rate: [torchmetrics/functional/text/wer.py]

  A shallow embedding of the functional word-error-rate metric and the
  properties stated about it.

  - [Py]     : the Python built-ins the module relies on ([str.split],
               [str.isspace], [zip], [len]).
  - [Torch]  : zero-dimensional [torch.float] tensors, as IEEE-754 binary32
               values ([SpecFloat] with precision 24 and [emax] 128).
  - [Helper] : [_edit_distance] of [torchmetrics.functional.text.helper].
  - [Wer]    : [_wer_update], [_wer_compute], [word_error_rate], [wer]. *)

From Stdlib Require Import NArith ZArith QArith List String Ascii Bool Lia Permutation.
From Stdlib Require Import Floats.SpecFloat.
Import ListNotations.
Close Scope Q_scope.

(* ------------------------------------------------------------------ *)
(** ** Python built-ins *)

Module Py.

(** A [str] is the sequence of its code points; the model keeps the code
    points below 256, one per [ascii]. *)
Abbreviation str := string (only parsing).

(** [str.isspace] on one code point: the code points below 256 that
    CPython classifies as whitespace (TAB, LF, VT, FF, CR, FS, GS, RS, US,
    SPACE, NEL and NBSP). *)
Definition isspace (c : ascii) : bool :=
  let n := N_of_ascii c in
  ((9 <=? n) && (n <=? 13) || (28 <=? n) && (n <=? 32)
   || (n =? 133) || (n =? 160))%N.

(** The word being read ([cur], its characters in order) is closed by a
    whitespace character or by the end of the string; empty words are
    never emitted. *)
Definition flush (cur : str) (rest : list str) : list str :=
  match cur with
  | EmptyString => rest
  | _ => cur :: rest
  end.

Fixpoint split_from (cur : str) (s : str) : list str :=
  match s with
  | EmptyString => flush cur []
  | String c s' =>
      if isspace c then flush cur (split_from EmptyString s')
      else split_from (String.append cur (String c EmptyString)) s'
  end.

(** [s.split()] with no separator: split on runs of whitespace, leading
    and trailing whitespace ignored. *)
Definition split (s : str) : list str := split_from EmptyString s.

(** [zip(xs, ys)] stops at the end of the shorter list. *)
Definition zip {A B : Type} (xs : list A) (ys : list B) : list (A * B) :=
  combine xs ys.

(** [len(xs)], a Python [int]. *)
Definition len {A : Type} (xs : list A) : Z := Z.of_nat (List.length xs).

(** Every character of [s] is whitespace. *)
Fixpoint whitespace_only (s : str) : bool :=
  match s with
  | EmptyString => true
  | String c s' => isspace c && whitespace_only s'
  end.

(** No character of [s] is whitespace. *)
Fixpoint no_space (s : str) : bool :=
  match s with
  | EmptyString => true
  | String c s' => negb (isspace c) && no_space s'
  end.

(** A word: at least one character, none of them whitespace. *)
Definition is_word (t : str) : bool :=
  match t with
  | EmptyString => false
  | _ => no_space t
  end.

(** [w * n]: [n] copies of [w], one after the other. *)
Definition repeat_str (w : str) (n : N) : str :=
  N.iter n (String.append w) EmptyString.

End Py.

(* ------------------------------------------------------------------ *)
(** ** Scalar [torch.float] tensors *)

Module Torch.

Definition prec : Z := 24.
Definition emax : Z := 128.

(** A zero-dimensional tensor of dtype [torch.float] holds one binary32
    value. *)
Definition Tensor := spec_float.

(** [tensor(z, dtype=torch.float)], and the conversion of a Python [int]
    operand to the tensor's dtype: round to nearest, ties to even. *)
Definition tensor (z : Z) : Tensor := binary_normalize prec emax z 0 false.

(** Number of binary digits of a mantissa. *)
Definition digits (m : positive) : Z := Zpos (digits2_pos m).

Definition add (x y : Tensor) : Tensor := SFadd prec emax x y.
Definition div (x y : Tensor) : Tensor := SFdiv prec emax x y.

(** [x += n] for a Python [int] [n]. *)
Definition iadd_int (x : Tensor) (n : Z) : Tensor := add x (tensor n).

Definition is_nan (x : Tensor) : bool :=
  match x with S754_nan => true | _ => false end.

Definition ltb (x y : Tensor) : bool := SFltb x y.

(** Strictly positive: a positive finite value or [+inf]. *)
Definition is_pos (x : Tensor) : bool :=
  match x with
  | S754_finite false _ _ | S754_infinity false => true
  | _ => false
  end.

Definition is_inf (x : Tensor) : bool :=
  match x with S754_infinity _ => true | _ => false end.

(** Sign bit clear and not NaN: [+0], a positive finite value or [+inf]. *)
Definition is_nonneg (x : Tensor) : bool :=
  match x with
  | S754_zero false | S754_finite false _ _ | S754_infinity false => true
  | _ => false
  end.

(** [+inf], or a positive normal value with a 24-digit mantissa and an
    exponent of at least -23, that is a value of at least 1. *)
Definition ge_one (x : Tensor) : bool :=
  match x with
  | S754_infinity false => true
  | S754_finite false m e => (digits m =? 24) && (-23 <=? e) && (e <=? 104)
  | _ => false
  end%Z.

(** The rational number a finite binary32 value stands for:
    [(-1)^s * m * 2^e]. *)
Definition F2Q (x : Tensor) : option Q :=
  match x with
  | S754_zero _ => Some (inject_Z 0)
  | S754_finite s m e =>
      let q := match e with
               | Zneg k => Qmake (Zpos m) (2 ^ k)
               | _ => inject_Z (Zpos m * 2 ^ e)
               end in
      Some (if s then Qopp q else q)
  | _ => None
  end.

(** [x] is finite and its value is the rational [q]. *)
Definition represents (x : Tensor) (q : Q) : Prop :=
  match F2Q x with
  | Some v => Qeq v q
  | None => False
  end.

End Torch.

(* ------------------------------------------------------------------ *)
(** ** [torchmetrics.functional.text.helper] *)

Module Helper.

Abbreviation token := string (only parsing).

(** Modelled from the spec: [_edit_distance] is imported from
    [torchmetrics.functional.text.helper], which is not part of the
    sources at hand.  The spec (DistanceEngine) gives it as the dynamic
    programme over an (m+1) x (n+1) table: [cell(i,0) = i],
    [cell(0,j) = j], and for [i, j >= 1], [cell(i,j) = cell(i-1,j-1)] when
    [A[i-1] == B[j-1]], else
    [1 + min(cell(i-1,j), cell(i,j-1), cell(i-1,j-1))]; the result is
    [cell(m,n)]. *)
Fixpoint cell (A B : list token) (i : nat) {struct i} : nat -> nat :=
  match i with
  | O => fun j => j
  | S i' =>
      fix row (j : nat) {struct j} : nat :=
        match j with
        | O => S i'
        | S j' =>
            if String.eqb (nth i' A EmptyString) (nth j' B EmptyString)
            then cell A B i' j'
            else 1 + Nat.min (cell A B i' (S j'))
                             (Nat.min (row j') (cell A B i' j'))
        end
  end.

(** Modelled from the spec: the distance is the last cell of the table,
    [cell(len(prediction_tokens), len(reference_tokens))], a Python [int]. *)
Definition _edit_distance (prediction_tokens reference_tokens : list token) : Z :=
  Z.of_nat (cell prediction_tokens reference_tokens
                 (List.length prediction_tokens) (List.length reference_tokens)).

End Helper.

(* ------------------------------------------------------------------ *)
(** ** [torchmetrics.functional.text.wer] *)

Module Wer.

Import Torch.

(** [Union[str, List[str]]] *)
Inductive StrOrList : Type :=
| Str (s : Py.str)
| Lst (l : list Py.str).

(** [if isinstance(x, str): x = [x]] *)
Definition as_list (x : StrOrList) : list Py.str :=
  match x with
  | Str s => [s]
  | Lst l => l
  end.

(** One iteration of the loop of [_wer_update]. *)
Definition step (acc : Tensor * Tensor) (pr : Py.str * Py.str) : Tensor * Tensor :=
  let '(errors, total) := acc in
  let '(prediction, reference) := pr in
  let prediction_tokens := Py.split prediction in
  let reference_tokens := Py.split reference in
  (iadd_int errors (Helper._edit_distance prediction_tokens reference_tokens),
   iadd_int total (Py.len reference_tokens)).

Definition _wer_update (predictions references : StrOrList) : Tensor * Tensor :=
  let predictions := as_list predictions in
  let references := as_list references in
  let errors := tensor 0 in
  let total := tensor 0 in
  fold_left step (Py.zip predictions references) (errors, total).

Definition _wer_compute (errors total : Tensor) : Tensor := div errors total.

Definition word_error_rate (predictions references : StrOrList) : Tensor :=
  let '(errors, total) := _wer_update predictions references in
  _wer_compute errors total.

(** A batch as the list of its (prediction, reference) pairs, and the
    exact integer totals the two accumulators stand for. *)
Definition batch : Type := list (Py.str * Py.str).

Definition pair_errors (pr : Py.str * Py.str) : Z :=
  Helper._edit_distance (Py.split (fst pr)) (Py.split (snd pr)).

Definition pair_tokens (pr : Py.str * Py.str) : Z :=
  Py.len (Py.split (snd pr)).

Fixpoint sum_Z (l : list Z) : Z :=
  match l with
  | [] => 0
  | z :: l' => z + sum_Z l'
  end%Z.

Definition sum_errors (b : batch) : Z := sum_Z (map pair_errors b).
Definition sum_tokens (b : batch) : Z := sum_Z (map pair_tokens b).

Definition reference_tokens_of (references : list Py.str) : Z :=
  sum_Z (map (fun r => Py.len (Py.split r)) references).

Definition predictions_of (b : batch) : StrOrList := Lst (map fst b).
Definition references_of (b : batch) : StrOrList := Lst (map snd b).

(** Two pairs with the same prediction tokens and the same reference
    tokens. *)
Definition same_tokens (pr pr' : Py.str * Py.str) : Prop :=
  Py.split (fst pr) = Py.split (fst pr') /\
  Py.split (snd pr) = Py.split (snd pr').

(** [2^24]: up to here every integer is a binary32 value. *)
Definition exact_limit : Z := 2 ^ 24.

(** A warning passed to [warnings.warn]: message and category. *)
Inductive Category := DeprecationWarning.
Definition Warning : Type := string * Category.

(** [wer] calls [warn] and then forwards to [word_error_rate]; the model
    returns the value together with the warnings emitted on the way. *)
Definition wer (predictions references : StrOrList) : Tensor * list Warning :=
  let w := ("`wer` was renamed to `word_error_rate` in v0.7 and it will be removed in v0.8"%string,
            DeprecationWarning) in
  (word_error_rate predictions references, [w]).

End Wer.

(* ------------------------------------------------------------------ *)
(** ** Facts about tokenisation *)

Module PyFacts.

Import Py.
Local Open Scope string_scope.

Lemma split_whitespace_only s : whitespace_only s = true -> split s = [].
Proof.
  unfold split. induction s as [|c s IH]; cbn [whitespace_only split_from]; intros H.
  - reflexivity.
  - apply andb_true_iff in H as [Hc Hs]. rewrite Hc. cbn [flush]. apply IH, Hs.
Qed.

Lemma split_word_then s : split (String.append "a " s) = "a" :: split s.
Proof. reflexivity. Qed.

Lemma split_repeat_str n : split (repeat_str "a " n) = repeat "a" (N.to_nat n).
Proof.
  induction n as [|n IH] using N.peano_ind; [reflexivity|].
  unfold repeat_str. rewrite N.iter_succ. fold (repeat_str "a " n).
  rewrite split_word_then, IH, N2Nat.inj_succ. reflexivity.
Qed.

Lemma len_split_repeat_str n : len (split (repeat_str "a " n)) = Z.of_N n.
Proof.
  rewrite split_repeat_str. unfold len. rewrite repeat_length. apply N_nat_Z.
Qed.

Lemma len_nonneg {A} (xs : list A) : (0 <= len xs)%Z.
Proof. apply Nat2Z.is_nonneg. Qed.

End PyFacts.

(* ------------------------------------------------------------------ *)
(** ** Facts about the edit distance *)

Module HelperFacts.

Import Helper.

Lemma cell_0_l A B j : cell A B 0 j = j.
Proof. reflexivity. Qed.

Lemma cell_0_r A B i : cell A B i 0 = i.
Proof. destruct i; reflexivity. Qed.

Lemma cell_S_S A B i j :
  cell A B (S i) (S j) =
  if String.eqb (nth i A EmptyString) (nth j B EmptyString)
  then cell A B i j
  else 1 + Nat.min (cell A B i (S j)) (Nat.min (cell A B (S i) j) (cell A B i j)).
Proof. reflexivity. Qed.

(** The diagonal of the table of a sequence against itself is zero. *)
Lemma cell_diag X i : cell X X i i = 0.
Proof.
  induction i as [|i IH]; [reflexivity|].
  rewrite cell_S_S, String.eqb_refl. exact IH.
Qed.

(** No cell exceeds the longer of the two prefixes. *)
Lemma cell_le_max A B i : forall j, cell A B i j <= Nat.max i j.
Proof.
  induction i as [|i IHi]; intros j; [rewrite cell_0_l; lia|].
  induction j as [|j IHj]; [rewrite cell_0_r; lia|].
  rewrite cell_S_S. specialize (IHi j).
  destruct String.eqb; lia.
Qed.

Lemma edit_distance_refl X : _edit_distance X X = 0%Z.
Proof. unfold _edit_distance. rewrite cell_diag. reflexivity. Qed.

Lemma edit_distance_nil_l B : _edit_distance [] B = Py.len B.
Proof. reflexivity. Qed.

Lemma edit_distance_nil_r A : _edit_distance A [] = Py.len A.
Proof. unfold _edit_distance. cbn [List.length]. rewrite cell_0_r. reflexivity. Qed.

Lemma edit_distance_nonneg A B : (0 <= _edit_distance A B)%Z.
Proof. apply Nat2Z.is_nonneg. Qed.

Lemma edit_distance_le_max A B :
  (_edit_distance A B <= Z.max (Py.len A) (Py.len B))%Z.
Proof.
  unfold _edit_distance, Py.len.
  pose proof (cell_le_max A B (List.length A) (List.length B)). lia.
Qed.

End HelperFacts.

(* ------------------------------------------------------------------ *)
(** ** Facts about binary32 arithmetic on integers *)

Module TorchFacts.

Import Torch.
Local Open Scope Z_scope.

Lemma digits2_size p : digits2_pos p = Pos.size p.
Proof. induction p; simpl; congruence. Qed.

Lemma digits_pos p : 0 < digits p.
Proof. unfold digits; lia. Qed.

Lemma digits_bounds p : 2 ^ (digits p - 1) <= Zpos p < 2 ^ digits p.
Proof.
  unfold digits. rewrite digits2_size. split.
  - pose proof (Pos.size_le p) as H.
    apply Pos2Z.pos_le_pos in H. rewrite Pos2Z.inj_pow in H.
    replace (Zpos (Pos.size p)) with ((Zpos (Pos.size p) - 1) + 1) in H at 1 by lia.
    rewrite Z.pow_add_r in H by lia. change (2 ^ 1) with 2 in H. lia.
  - rewrite <- Pos2Z.inj_pow. apply Pos2Z.pos_lt_pos, Pos.size_gt.
Qed.

Lemma digits_unique p d : 2 ^ (d - 1) <= Zpos p < 2 ^ d -> digits p = d.
Proof.
  intros [H1 H2]. destruct (digits_bounds p) as [H3 H4].
  pose proof (digits_pos p) as Hp.
  assert (0 < d) as Hd.
  { destruct (Z_lt_le_dec 0 d) as [|Hle]; [assumption|].
    assert (2 ^ d <= 2 ^ 0) by (apply Z.pow_le_mono_r; lia).
    change (2 ^ 0) with 1 in *. lia. }
  assert (d - 1 < digits p) by (apply (Z.pow_lt_mono_r_iff 2); lia).
  assert (digits p - 1 < d) by (apply (Z.pow_lt_mono_r_iff 2); lia).
  lia.
Qed.

Lemma iter_xO p k : Zpos (Pos.iter xO p k) = Zpos p * 2 ^ Zpos k.
Proof.
  induction k as [|k IH] using Pos.peano_ind.
  - simpl. lia.
  - rewrite Pos.iter_succ, Pos2Z.inj_succ, Z.pow_succ_r by lia.
    rewrite Pos2Z.inj_xO, IH. lia.
Qed.

Lemma digits_iter_xO p k : digits (Pos.iter xO p k) = digits p + Zpos k.
Proof.
  induction k as [|k IH] using Pos.peano_ind.
  - unfold digits. simpl. lia.
  - rewrite Pos.iter_succ. unfold digits in *. simpl digits2_pos.
    rewrite Pos2Z.inj_succ, IH. lia.
Qed.

(** Shifting out [k] zero bits loses nothing. *)
Lemma iter_shr_1_exact k : forall m,
    iter_pos shr_1 k (Build_shr_record (Zpos (Pos.iter xO m k)) false false)
    = Build_shr_record (Zpos m) false false.
Proof.
  induction k as [k IH|k IH|]; intros m; simpl.
  - rewrite !IH. reflexivity.
  - rewrite !IH. reflexivity.
  - reflexivity.
Qed.

Lemma fexp_normal x : -125 <= x -> fexp prec emax x = x - 24.
Proof. unfold fexp, emin, prec, emax. lia. Qed.

Lemma shr_fexp_canon m e :
  digits m = 24 -> -149 <= e ->
  shr_fexp prec emax (Zpos m) e loc_Exact
  = (Build_shr_record (Zpos m) false false, e).
Proof.
  intros Hd He. unfold shr_fexp. cbn [Zdigits2 shr_record_of_loc].
  fold (digits m). rewrite Hd, fexp_normal by lia.
  replace (24 + e - 24 - e) with 0 by lia. reflexivity.
Qed.

Lemma leb_emax e : e <= 104 -> (e <=? emax - prec) = true.
Proof. intros H. apply Z.leb_le. unfold emax, prec. lia. Qed.

(** A 24-digit mantissa with an exponent in range is already rounded. *)
Lemma binary_round_aux_canon m e :
  digits m = 24 -> -149 <= e <= 104 ->
  binary_round_aux prec emax false (Zpos m) e loc_Exact = S754_finite false m e.
Proof.
  intros Hd He. unfold binary_round_aux.
  rewrite shr_fexp_canon by lia.
  cbn [shr_m loc_of_shr_record round_nearest_even].
  rewrite shr_fexp_canon by lia. cbn [shr_m].
  rewrite leb_emax by lia. reflexivity.
Qed.

Lemma binary_round_shifted_left m k ez e :
  digits m = 24 -> -149 <= e <= 104 -> ez + Zpos k = e ->
  binary_round prec emax false (Pos.iter xO m k) ez = S754_finite false m e.
Proof.
  intros Hd He Hk. unfold binary_round.
  fold (digits (Pos.iter xO m k)). rewrite digits_iter_xO, Hd.
  rewrite fexp_normal by lia. unfold shl_align.
  replace (24 + Zpos k + ez - 24 - ez) with (Zpos k) by lia.
  unfold binary_round_aux, shr_fexp at 1. cbn [Zdigits2 shr_record_of_loc].
  fold (digits (Pos.iter xO m k)). rewrite digits_iter_xO, Hd.
  rewrite fexp_normal by lia.
  replace (24 + Zpos k + ez - 24 - ez) with (Zpos k) by lia.
  unfold shr. rewrite iter_shr_1_exact.
  cbn [shr_m loc_of_shr_record round_nearest_even].
  rewrite shr_fexp_canon by lia. cbn [shr_m].
  rewrite leb_emax by lia. rewrite Hk. reflexivity.
Qed.

Lemma binary_round_shifted_right M k ez e :
  digits (Pos.iter xO M k) = 24 -> -149 <= e <= 104 -> ez - Zpos k = e ->
  binary_round prec emax false M ez = S754_finite false (Pos.iter xO M k) e.
Proof.
  intros Hd He Hk. unfold binary_round.
  fold (digits M). pose proof Hd as Hd'. rewrite digits_iter_xO in Hd'.
  rewrite fexp_normal by lia. unfold shl_align.
  replace (digits M + ez - 24 - ez) with (Zneg k) by lia.
  replace (digits M + ez - 24) with e by lia.
  apply binary_round_aux_canon; lia.
Qed.

Lemma binary_round_canon m e :
  digits m = 24 -> -149 <= e <= 104 ->
  binary_round prec emax false m e = S754_finite false m e.
Proof.
  intros Hd He. unfold binary_round. fold (digits m).
  rewrite Hd, fexp_normal by lia. unfold shl_align.
  replace (24 + e - 24 - e) with 0 by lia.
  apply binary_round_aux_canon; assumption.
Qed.

(** Rounding is exact on every representation [M * 2^ez] of a binary32
    number [m * 2^e]; [c] only serves to keep the exponents of the
    hypothesis non-negative. *)
Lemma binary_round_repr M ez m e c :
  digits m = 24 -> -149 <= e <= 104 -> 0 <= ez + c -> 0 <= e + c ->
  Zpos M * 2 ^ (ez + c) = Zpos m * 2 ^ (e + c) ->
  binary_round prec emax false M ez = S754_finite false m e.
Proof.
  intros Hd He Hz Hc Heq.
  assert (0 < 2 ^ (ez + c)) as Pz by (apply Z.pow_pos_nonneg; lia).
  assert (0 < 2 ^ (e + c)) as Pe by (apply Z.pow_pos_nonneg; lia).
  destruct (Z.lt_total ez e) as [Hlt|[->|Hgt]].
  - destruct (e - ez) as [| k | k] eqn:Ek; try lia.
    replace (e + c) with (Zpos k + (ez + c)) in Heq by lia.
    rewrite (Z.pow_add_r 2 (Zpos k) (ez + c)), Z.mul_assoc in Heq by lia.
    apply Z.mul_reg_r in Heq; [|lia].
    rewrite <- iter_xO in Heq. injection Heq as ->.
    apply binary_round_shifted_left; lia.
  - apply Z.mul_reg_r in Heq; [|lia]. injection Heq as ->.
    apply binary_round_canon; assumption.
  - destruct (ez - e) as [| k | k] eqn:Ek; try lia.
    replace (ez + c) with (Zpos k + (e + c)) in Heq by lia.
    rewrite (Z.pow_add_r 2 (Zpos k) (e + c)), Z.mul_assoc in Heq by lia.
    apply Z.mul_reg_r in Heq; [|lia].
    rewrite <- iter_xO in Heq. injection Heq as <-.
    apply binary_round_shifted_right; lia.
Qed.

Lemma shl_align_Z mx ex ez :
  ez <= ex ->
  Zpos (fst (shl_align mx ex ez)) = Zpos mx * 2 ^ (ex - ez).
Proof.
  intros H. unfold shl_align.
  destruct (ez - ex) as [| d | d] eqn:E; try lia.
  - replace (ex - ez) with 0 by lia. cbn [fst]. lia.
  - replace (ex - ez) with (Zpos d) by lia. cbn [fst]. apply iter_xO.
Qed.

(** The binary32 value of an integer in [1, 2^24]: a 24-digit mantissa
    [m] and an exponent [e] with [n = m * 2^e]. *)
Lemma tensor_canon n :
  0 < n <= 2 ^ 24 ->
  exists m e, tensor n = S754_finite false m e /\ digits m = 24 /\
              -23 <= e <= 1 /\ n * 2 ^ 23 = Zpos m * 2 ^ (e + 23).
Proof.
  intros [Hn Hle]. destruct n as [| p | p]; try lia.
  destruct (digits_bounds p) as [Hlo Hhi]. pose proof (digits_pos p) as Hp.
  assert (digits p <= 25) as Hd.
  { assert (digits p - 1 < 25); [|lia].
    apply (Z.pow_lt_mono_r_iff 2); lia. }
  destruct (Z.eq_dec (digits p) 25) as [E25|N25].
  - rewrite E25 in Hlo. change (2 ^ (25 - 1)) with (2 ^ 24) in Hlo.
    assert (Zpos p = 2 ^ 24) as E by lia.
    change (2 ^ 24) with (Zpos 16777216) in E. injection E as ->.
    exists 8388608%positive, 1. repeat split; try reflexivity; lia.
  - destruct (24 - digits p) as [| k | k] eqn:Ek; try lia.
    + exists p, 0. split; [|repeat split; try lia].
      apply binary_round_canon; lia.
    + exists (Pos.iter xO p k), (- Zpos k). split; [|split; [|split]].
      * apply binary_round_shifted_right; rewrite ?digits_iter_xO; lia.
      * rewrite digits_iter_xO; lia.
      * lia.
      * rewrite iter_xO, <- Z.mul_assoc, <- Z.pow_add_r by lia.
        f_equal. f_equal. lia.
Qed.

Lemma tensor_0 : tensor 0 = S754_zero false.
Proof. reflexivity. Qed.

(** Below [2^24] binary32 addition of non-negative integers is exact. *)
Lemma add_exact a b :
  0 <= a -> 0 <= b -> a + b <= 2 ^ 24 ->
  add (tensor a) (tensor b) = tensor (a + b).
Proof.
  intros Ha Hb Hs.
  destruct (Z.eq_dec a 0) as [->|Na].
  { destruct (Z.eq_dec b 0) as [->|Nb]; [reflexivity|].
    destruct (tensor_canon b) as (m & e & E & _); [lia|].
    rewrite Z.add_0_l, E. reflexivity. }
  destruct (Z.eq_dec b 0) as [->|Nb].
  { destruct (tensor_canon a) as (m & e & E & _); [lia|].
    rewrite Z.add_0_r, E. reflexivity. }
  destruct (tensor_canon a) as (ma & ea & Ea & Da & Ba & Va); [lia|].
  destruct (tensor_canon b) as (mb & eb & Eb & Db & Bb & Vb); [lia|].
  destruct (tensor_canon (a + b)) as (m & e & Es & Ds & Bs & Vs); [lia|].
  rewrite Ea, Eb, Es. unfold add, SFadd. cbn [cond_Zopp].
  set (ez := Z.min ea eb).
  assert (ez <= ea /\ ez <= eb /\ -23 <= ez) as (Hza & Hzb & Hz23)
      by (unfold ez; lia).
  rewrite <- Pos2Z.inj_add. cbn [binary_normalize].
  apply binary_round_repr with (c := 23); try lia.
  rewrite Pos2Z.inj_add, !shl_align_Z by lia.
  rewrite Z.mul_add_distr_r, <- !Z.mul_assoc, <- !Z.pow_add_r by lia.
  replace (ea - ez + (ez + 23)) with (ea + 23) by lia.
  replace (eb - ez + (ez + 23)) with (eb + 23) by lia.
  rewrite <- Va, <- Vb, <- Vs. ring.
Qed.

Lemma tensor_exact n : 0 <= n <= 2 ^ 24 -> represents (tensor n) (inject_Z n).
Proof.
  intros [H0 H]. destruct (Z.eq_dec n 0) as [->|N]; [reflexivity|].
  destruct (tensor_canon n) as (m & e & E & D & B & V); [lia|].
  rewrite E. unfold represents, F2Q.
  assert (0 < 2 ^ (e + 23)) as P by (apply Z.pow_pos_nonneg; lia).
  destruct e as [| k | k].
  - unfold Qeq. cbn. change (2 ^ (0 + 23)) with (2 ^ 23) in V. lia.
  - unfold Qeq. cbn [Qnum Qden inject_Z].
    rewrite (Z.pow_add_r 2 (Zpos k) 23), Z.mul_assoc in V by lia.
    apply Z.mul_reg_r in V; [|lia]. lia.
  - unfold Qeq. cbn [Qnum Qden inject_Z]. rewrite Pos2Z.inj_pow.
    replace 23 with (Zpos k + (Z.neg k + 23)) in V at 1 by lia.
    rewrite (Z.pow_add_r 2 (Zpos k) (Z.neg k + 23)), Z.mul_assoc in V by lia.
    apply Z.mul_reg_r in V; [|lia]. lia.
Qed.

(** *** Conversion of an arbitrary positive integer *)

Lemma shr_m_shr_1 mrs : 0 <= shr_m mrs -> shr_m (shr_1 mrs) = shr_m mrs / 2.
Proof.
  destruct mrs as [m r s]. cbn [shr_m]. intros H.
  rewrite <- Z.div2_div. destruct m as [|[p|p|]|p]; try reflexivity. lia.
Qed.

Lemma shr_m_iter k : forall mrs,
    0 <= shr_m mrs ->
    shr_m (iter_pos shr_1 k mrs) = shr_m mrs / 2 ^ Zpos k.
Proof.
  assert (forall j, 0 < 2 ^ Zpos j) as P by (intros; apply Z.pow_pos_nonneg; lia).
  induction k as [k IH|k IH|]; intros mrs H; cbn [iter_pos].
  - pose proof (P k). rewrite IH, IH, shr_m_shr_1; try assumption.
    + rewrite !Z.div_div by lia. f_equal.
      replace (Zpos k~1) with (1 + Zpos k + Zpos k) by lia.
      rewrite !Z.pow_add_r by lia. change (2 ^ 1) with 2. ring.
    + rewrite shr_m_shr_1 by assumption. apply Z.div_pos; lia.
    + rewrite IH, shr_m_shr_1; try assumption.
      * apply Z.div_pos; [apply Z.div_pos|]; lia.
      * rewrite shr_m_shr_1 by assumption. apply Z.div_pos; lia.
  - pose proof (P k). rewrite IH, IH; try assumption.
    + rewrite Z.div_div by lia. f_equal.
      rewrite <- Z.pow_add_r by lia. f_equal. lia.
    + rewrite IH by assumption. apply Z.div_pos; lia.
  - rewrite shr_m_shr_1 by assumption. reflexivity.
Qed.

Lemma round_nearest_even_bounds m l :
  m <= round_nearest_even m l <= m + 1.
Proof.
  destruct l as [|[]]; cbn [round_nearest_even]; try lia.
  destruct (Z.even m); lia.
Qed.

(** Whatever its size, a positive [int] converts to a positive binary32
    value: a finite one, or [+inf] on overflow. *)
Lemma tensor_is_pos n : 0 < n -> is_pos (tensor n) = true.
Proof.
  intros Hn. destruct (Z_le_gt_dec n (2 ^ 24)) as [Hle|Hgt].
  { destruct (tensor_canon n) as (m & e & E & _); [lia|].
    rewrite E. reflexivity. }
  destruct n as [| p | p]; try lia.
  destruct (digits_bounds p) as [Hlo Hhi]. pose proof (digits_pos p) as Hp.
  assert (24 < digits p) as Hd by (apply (Z.pow_lt_mono_r_iff 2); lia).
  unfold tensor, binary_normalize, binary_round. fold (digits p).
  rewrite fexp_normal by lia. unfold shl_align.
  destruct (digits p + 0 - 24 - 0) as [| k | k] eqn:Ek; try lia.
  unfold binary_round_aux, shr_fexp at 1. cbn [Zdigits2 shr_record_of_loc].
  fold (digits p). rewrite fexp_normal, Ek by lia. unfold shr at 1.
  set (mrs := iter_pos shr_1 k (Build_shr_record (Zpos p) false false)).
  assert (0 < 2 ^ Zpos k) as Pk by (apply Z.pow_pos_nonneg; lia).
  assert (2 ^ 23 <= shr_m mrs < 2 ^ 24) as [B1 B2].
  { unfold mrs. rewrite shr_m_iter by (cbn; lia). cbn [shr_m].
    replace (digits p - 1) with (Zpos k + 23) in Hlo by lia.
    replace (digits p) with (Zpos k + 24) in Hhi by lia.
    rewrite Z.pow_add_r in Hlo, Hhi by lia. split.
    - apply Z.div_le_lower_bound; lia.
    - apply Z.div_lt_upper_bound; lia. }
  pose proof (round_nearest_even_bounds (shr_m mrs) (loc_of_shr_record mrs)) as R.
  destruct (round_nearest_even (shr_m mrs) (loc_of_shr_record mrs))
    as [| q | q]; try lia.
  destruct (Z.eq_dec (Zpos q) (2 ^ 24)) as [E|N].
  - change (2 ^ 24) with (Zpos 16777216) in E. injection E as ->.
    unfold shr_fexp. cbn [Zdigits2 shr_record_of_loc].
    change (Zpos (digits2_pos 16777216)) with 25.
    rewrite fexp_normal by lia.
    replace (25 + (0 + Zpos k) - 24 - (0 + Zpos k)) with 1 by lia.
    cbn [shr iter_pos shr_1 shr_m orb].
    destruct (0 + Zpos k + 1 <=? emax - prec); reflexivity.
  - rewrite shr_fexp_canon; [| apply digits_unique |]; try lia.
    cbn [shr_m]. destruct (0 + Zpos k <=? emax - prec); reflexivity.
Qed.

End TorchFacts.

(* ------------------------------------------------------------------ *)
(** ** The accumulators of [_wer_update] *)

Module WerFacts.

Import Torch Wer.
Local Open Scope Z_scope.

Lemma pair_errors_nonneg pr : 0 <= pair_errors pr.
Proof. apply HelperFacts.edit_distance_nonneg. Qed.

Lemma pair_tokens_nonneg pr : 0 <= pair_tokens pr.
Proof. apply PyFacts.len_nonneg. Qed.

Lemma sum_Z_nonneg l : Forall (fun z => 0 <= z) l -> 0 <= sum_Z l.
Proof. induction 1; cbn [sum_Z] in *; lia. Qed.

Lemma sum_errors_nonneg b : 0 <= sum_errors b.
Proof.
  apply sum_Z_nonneg, Forall_map, Forall_forall.
  intros; apply pair_errors_nonneg.
Qed.

Lemma sum_tokens_nonneg b : 0 <= sum_tokens b.
Proof.
  apply sum_Z_nonneg, Forall_map, Forall_forall.
  intros; apply pair_tokens_nonneg.
Qed.

Lemma sum_Z_perm l l' : Permutation l l' -> sum_Z l = sum_Z l'.
Proof. induction 1; cbn [sum_Z] in *; lia. Qed.

Lemma step_eq e t pr :
  step (e, t) pr = (add e (tensor (pair_errors pr)), add t (tensor (pair_tokens pr))).
Proof. destruct pr; reflexivity. Qed.

(** While the totals stay within [exact_limit], the loop computes them
    exactly. *)
Lemma fold_step_exact b : forall e t,
    0 <= e -> 0 <= t ->
    e + sum_errors b <= exact_limit -> t + sum_tokens b <= exact_limit ->
    fold_left step b (tensor e, tensor t)
    = (tensor (e + sum_errors b), tensor (t + sum_tokens b)).
Proof.
  unfold exact_limit.
  induction b as [|pr b IH]; intros e t He Ht Be Bt.
  - cbn. rewrite !Z.add_0_r. reflexivity.
  - pose proof (pair_errors_nonneg pr). pose proof (pair_tokens_nonneg pr).
    pose proof (sum_errors_nonneg b). pose proof (sum_tokens_nonneg b).
    unfold sum_errors, sum_tokens in *. cbn [map sum_Z] in *.
    cbn [fold_left]. rewrite step_eq, !TorchFacts.add_exact by lia.
    rewrite IH by lia. rewrite !Z.add_assoc. reflexivity.
Qed.

Lemma zip_batch (b : batch) : Py.zip (map fst b) (map snd b) = b.
Proof.
  unfold Py.zip. induction b as [|[p r] b IH]; cbn; [|rewrite IH]; reflexivity.
Qed.

Lemma update_batch_exact b :
  sum_errors b <= exact_limit -> sum_tokens b <= exact_limit ->
  _wer_update (predictions_of b) (references_of b)
  = (tensor (sum_errors b), tensor (sum_tokens b)).
Proof.
  intros He Ht. unfold _wer_update, predictions_of, references_of.
  cbn [as_list]. rewrite zip_batch.
  apply (fold_step_exact b 0 0); lia.
Qed.

End WerFacts.

(* ------------------------------------------------------------------ *)
(** ** Properties of the metric *)

Import Torch Wer.
Local Open Scope string_scope.
Local Open Scope Z_scope.

Section LongReference.

(** A reference [R] of [2^24] words, the size at which binary32 stops
    counting by ones. *)
Variable R : Py.str.
Hypothesis R_tokens : Py.len (Py.split R) = 16777216.

Lemma pair_tokens_long p : pair_tokens (p, R) = 16777216.
Proof. exact R_tokens. Qed.

Lemma pair_errors_long : pair_errors ("", R) = 16777216.
Proof.
  unfold pair_errors. cbn [fst snd]. change (Py.split "") with (@nil Py.str).
  rewrite HelperFacts.edit_distance_nil_l. exact R_tokens.
Qed.

Lemma update_long_first :
  _wer_update (Lst [""; ""; ""]) (Lst [R; "a"; "a"])
  = (tensor 16777216, tensor 16777216).
Proof.
  unfold _wer_update. cbn [as_list Py.zip combine fold_left].
  rewrite !WerFacts.step_eq, pair_errors_long, pair_tokens_long.
  reflexivity.
Qed.

Lemma sums_long_first :
  sum_errors (Py.zip [""; ""; ""] [R; "a"; "a"]) = 16777218 /\
  reference_tokens_of [R; "a"; "a"] = 16777218.
Proof.
  unfold sum_errors, reference_tokens_of. cbn [Py.zip combine map sum_Z].
  rewrite pair_errors_long, R_tokens. split; reflexivity.
Qed.

Lemma rate_long_last :
  word_error_rate (Lst ["a"; "a"; ""]) (Lst [""; ""; R])
  = S754_finite false 8388609 (-23).
Proof.
  unfold word_error_rate, _wer_update. cbn [as_list Py.zip combine fold_left].
  rewrite !WerFacts.step_eq, pair_errors_long, pair_tokens_long.
  reflexivity.
Qed.

Lemma rate_long_first :
  word_error_rate (Lst [""; "a"; "a"]) (Lst [R; ""; ""])
  = S754_finite false 8388608 (-23).
Proof.
  unfold word_error_rate, _wer_update. cbn [as_list Py.zip combine fold_left].
  rewrite !WerFacts.step_eq, pair_errors_long, pair_tokens_long.
  reflexivity.
Qed.

End LongReference.

(** C1: on the batch of the docstring, predictions
    ["this is the prediction"; "there is an other sample"] against references
    ["this is the reference"; "there is another one"], [_wer_update] counts
    4 edit operations over 8 reference tokens and [word_error_rate] returns
    exactly 0.5. *)
Theorem word_error_rate_docstring_example :
  let predictions := Lst ["this is the prediction"; "there is an other sample"] in
  let references := Lst ["this is the reference"; "there is another one"] in
  _wer_update predictions references = (tensor 4, tensor 8) /\
  represents (tensor 4) (inject_Z 4) /\
  represents (tensor 8) (inject_Z 8) /\
  represents (word_error_rate predictions references) (Qmake 1 2).
Proof. vm_compute. repeat split; reflexivity. Qed.

(** C2, amended: for every equal-length batch whose two totals do not exceed
    [2^24], [_wer_update] returns the pair (total_errors,
    total_reference_tokens): the sum over all pairs of the edit distance
    between prediction tokens and reference tokens, and the sum of the
    lengths of the reference token sequences, both held exactly. *)
Theorem wer_update_totals (ps rs : list Py.str) :
  List.length ps = List.length rs ->
  sum_errors (Py.zip ps rs) <= exact_limit ->
  reference_tokens_of rs <= exact_limit ->
  _wer_update (Lst ps) (Lst rs)
  = (tensor (sum_errors (Py.zip ps rs)), tensor (reference_tokens_of rs)) /\
  represents (fst (_wer_update (Lst ps) (Lst rs)))
             (inject_Z (sum_errors (Py.zip ps rs))) /\
  represents (snd (_wer_update (Lst ps) (Lst rs)))
             (inject_Z (reference_tokens_of rs)).
Proof.
  intros Hlen He Ht.
  assert (sum_tokens (Py.zip ps rs) = reference_tokens_of rs) as Hsum.
  { clear He Ht. unfold sum_tokens, reference_tokens_of, Py.zip.
    revert rs Hlen. induction ps as [|p ps IH]; intros [|r rs] Hlen;
      try discriminate; [reflexivity|].
    cbn [combine map sum_Z]. rewrite IH by (injection Hlen; auto). reflexivity. }
  assert (_wer_update (Lst ps) (Lst rs)
          = (tensor (sum_errors (Py.zip ps rs)), tensor (reference_tokens_of rs)))
    as Hupd.
  { rewrite <- Hsum in *. unfold _wer_update. cbn [as_list].
    apply (WerFacts.fold_step_exact (Py.zip ps rs) 0 0); lia. }
  rewrite Hupd. cbn [fst snd]. split; [reflexivity|].
  pose proof (WerFacts.sum_errors_nonneg (Py.zip ps rs)).
  pose proof (WerFacts.sum_tokens_nonneg (Py.zip ps rs)).
  split; apply TorchFacts.tensor_exact; unfold exact_limit in *; lia.
Qed.

Lemma wer_update_totals_witness :
  let ps := ["a b"; "c"] in
  let rs := ["a d"; "c e"] in
  List.length ps = List.length rs /\
  sum_errors (Py.zip ps rs) <= exact_limit /\
  reference_tokens_of rs <= exact_limit /\
  _wer_update (Lst ps) (Lst rs) = (tensor 2, tensor 4).
Proof.
  intros ps rs.
  assert (List.length ps = List.length rs) as H1 by reflexivity.
  assert (sum_errors (Py.zip ps rs) <= exact_limit) as H2
      by (vm_compute; discriminate).
  assert (reference_tokens_of rs <= exact_limit) as H3
      by (vm_compute; discriminate).
  split; [exact H1|]. split; [exact H2|]. split; [exact H3|].
  exact (proj1 (wer_update_totals ps rs H1 H2 H3)).
Defined.

(** C2 as stated fails past [2^24]: with three empty predictions against a
    reference of 16777216 words and two references of one word, the sums are
    16777218 and 16777218, but both accumulators stop at 16777216. *)
Lemma wer_update_totals_inexact :
  let ps := [""; ""; ""] in
  let rs := [Py.repeat_str "a " 16777216; "a"; "a"] in
  List.length ps = List.length rs /\
  sum_errors (Py.zip ps rs) = 16777218 /\
  reference_tokens_of rs = 16777218 /\
  _wer_update (Lst ps) (Lst rs) = (tensor 16777216, tensor 16777216) /\
  ~ represents (fst (_wer_update (Lst ps) (Lst rs)))
               (inject_Z (sum_errors (Py.zip ps rs))) /\
  ~ represents (snd (_wer_update (Lst ps) (Lst rs)))
               (inject_Z (reference_tokens_of rs)) /\
  tensor 16777216 <> tensor 16777218.
Proof.
  intros ps rs.
  pose proof (PyFacts.len_split_repeat_str 16777216) as HR.
  change (Z.of_N 16777216) with 16777216 in HR.
  destruct (sums_long_first _ HR) as [He Ht].
  pose proof (update_long_first _ HR) as Hu.
  unfold ps, rs. rewrite He, Ht, Hu. cbn [fst snd].
  repeat split; try reflexivity; vm_compute; discriminate.
Qed.

(** With no reference token in any pair, the total stays at zero. *)
Lemma fold_step_no_tokens b : forall e,
    sum_tokens b = 0 -> snd (fold_left step b (e, tensor 0)) = tensor 0.
Proof.
  induction b as [|pr b IH]; intros e H; [reflexivity|].
  pose proof (WerFacts.pair_tokens_nonneg pr).
  pose proof (WerFacts.sum_tokens_nonneg b).
  unfold sum_tokens in *. cbn [map sum_Z] in H.
  cbn [fold_left]. rewrite WerFacts.step_eq.
  replace (pair_tokens pr) with 0 by lia.
  change (add (tensor 0) (tensor 0)) with (tensor 0). apply IH. lia.
Qed.

(** With no error in any pair either, the error count stays at zero. *)
Lemma fold_step_no_errors b : forall t,
    sum_errors b = 0 -> fst (fold_left step b (tensor 0, t)) = tensor 0.
Proof.
  induction b as [|pr b IH]; intros t H; [reflexivity|].
  pose proof (WerFacts.pair_errors_nonneg pr).
  pose proof (WerFacts.sum_errors_nonneg b).
  unfold sum_errors in *. cbn [map sum_Z] in H.
  cbn [fold_left]. rewrite WerFacts.step_eq.
  replace (pair_errors pr) with 0 by lia.
  change (add (tensor 0) (tensor 0)) with (tensor 0). apply IH. lia.
Qed.

Lemma div_by_zero x : is_nan (div x (tensor 0)) || is_inf (div x (tensor 0)) = true.
Proof. destruct x; reflexivity. Qed.

(** C3: when the batch has no reference token at all, as for predictions =
    "" and references = "", [word_error_rate] still returns a value, and that
    value is one of the sentinels of binary32 division by zero: NaN (for
    0/0) or an infinity (for x/0). *)
Theorem word_error_rate_no_reference_tokens (ps rs : StrOrList) :
  sum_tokens (Py.zip (as_list ps) (as_list rs)) = 0 ->
  is_nan (word_error_rate ps rs) || is_inf (word_error_rate ps rs) = true.
Proof.
  intros H. unfold word_error_rate, _wer_update, _wer_compute.
  pose proof (fold_step_no_tokens (Py.zip (as_list ps) (as_list rs)) (tensor 0) H) as Ht.
  destruct (fold_left step _ _) as [errors total]. cbn [fst snd] in *. subst total.
  apply div_by_zero.
Qed.

Lemma word_error_rate_no_reference_tokens_witness :
  sum_tokens (Py.zip (as_list (Str "")) (as_list (Str ""))) = 0 /\
  is_nan (word_error_rate (Str "") (Str ""))
  || is_inf (word_error_rate (Str "") (Str "")) = true.
Proof.
  split; [reflexivity|].
  exact (word_error_rate_no_reference_tokens (Str "") (Str "") eq_refl).
Defined.

(** With no reference token and no error the rate is 0/0, NaN. *)
Lemma word_error_rate_no_tokens_no_errors (ps rs : StrOrList) :
  sum_tokens (Py.zip (as_list ps) (as_list rs)) = 0 ->
  sum_errors (Py.zip (as_list ps) (as_list rs)) = 0 ->
  word_error_rate ps rs = S754_nan.
Proof.
  intros Ht He. unfold word_error_rate, _wer_update, _wer_compute.
  pose proof (fold_step_no_tokens _ (tensor 0) Ht) as Et.
  pose proof (fold_step_no_errors _ (tensor 0) He) as Ee.
  destruct (fold_left step _ _) as [errors total]. cbn [fst snd] in *.
  subst. reflexivity.
Qed.

Example word_error_rate_empty_strings : word_error_rate (Str "") (Str "") = S754_nan.
Proof. apply word_error_rate_no_tokens_no_errors; reflexivity. Qed.

(** C4: lists of different lengths are silently cut to the shorter one:
    [_wer_update] on [ps] and [rs] is [_wer_update] on their prefixes of
    length [min (len ps) (len rs)], and no error is raised. *)
Theorem wer_update_truncates (ps rs : list Py.str) :
  let n := Nat.min (List.length ps) (List.length rs) in
  _wer_update (Lst ps) (Lst rs)
  = _wer_update (Lst (firstn n ps)) (Lst (firstn n rs)).
Proof.
  intros n. unfold _wer_update, Py.zip. cbn [as_list].
  rewrite <- combine_firstn. unfold n. rewrite <- length_combine, firstn_all.
  reflexivity.
Qed.

(** C5: a bare string on either side is a batch of size one. *)
Theorem word_error_rate_single_string (p r : Py.str) :
  word_error_rate (Str p) (Str r) = word_error_rate (Lst [p]) (Lst [r]) /\
  (forall rs, word_error_rate (Str p) rs = word_error_rate (Lst [p]) rs) /\
  (forall ps, word_error_rate ps (Str r) = word_error_rate ps (Lst [r])).
Proof. repeat split. Qed.

(** C6, amended: when the batch's total of edit operations and total of
    reference tokens are both at most [2^24], reordering its pairs does not
    change the rate. *)
Theorem word_error_rate_permutation (b b' : batch) :
  Permutation b b' ->
  sum_errors b <= exact_limit -> sum_tokens b <= exact_limit ->
  word_error_rate (predictions_of b') (references_of b')
  = word_error_rate (predictions_of b) (references_of b).
Proof.
  intros P He Ht.
  assert (sum_errors b' = sum_errors b) as Ee
      by (symmetry; apply WerFacts.sum_Z_perm, Permutation_map, P).
  assert (sum_tokens b' = sum_tokens b) as Et
      by (symmetry; apply WerFacts.sum_Z_perm, Permutation_map, P).
  unfold word_error_rate.
  rewrite !WerFacts.update_batch_exact by (rewrite ?Ee, ?Et; assumption).
  rewrite Ee, Et. reflexivity.
Qed.

Lemma word_error_rate_permutation_witness :
  let b := [("a b", "a c"); ("d", "d e f")] in
  let b' := [("d", "d e f"); ("a b", "a c")] in
  Permutation b b' /\
  sum_errors b <= exact_limit /\ sum_tokens b <= exact_limit /\
  word_error_rate (predictions_of b') (references_of b')
  = word_error_rate (predictions_of b) (references_of b).
Proof.
  intros b b'.
  assert (Permutation b b') as H1 by apply perm_swap.
  assert (sum_errors b <= exact_limit) as H2 by (vm_compute; discriminate).
  assert (sum_tokens b <= exact_limit) as H3 by (vm_compute; discriminate).
  split; [exact H1|]. split; [exact H2|]. split; [exact H3|].
  exact (word_error_rate_permutation b b' H1 H2 H3).
Defined.

(** C6 as stated fails past [2^24]: moving the pair with a reference of
    16777216 words from the end of the batch to its front changes the rate
    from 16777218/16777216 to 1. *)
Lemma word_error_rate_order_matters :
  let R := Py.repeat_str "a " 16777216 in
  let b := [("a", ""); ("a", ""); ("", R)] in
  let b' := [("", R); ("a", ""); ("a", "")] in
  Permutation b b' /\
  word_error_rate (predictions_of b) (references_of b)
  = S754_finite false 8388609 (-23) /\
  word_error_rate (predictions_of b') (references_of b')
  = S754_finite false 8388608 (-23) /\
  word_error_rate (predictions_of b') (references_of b')
  <> word_error_rate (predictions_of b) (references_of b).
Proof.
  intros R b b'.
  pose proof (PyFacts.len_split_repeat_str 16777216) as HR.
  change (Z.of_N 16777216) with 16777216 in HR. fold R in HR.
  pose proof (rate_long_last R HR) as E1.
  pose proof (rate_long_first R HR) as E2.
  unfold b, b', predictions_of, references_of. cbn [map fst snd].
  rewrite E1, E2. split; [|repeat split; discriminate].
  exact (Permutation_app_comm [("a", ""); ("a", "")] [("", R)]).
Qed.

(** A string scored against itself: no error, and as many reference tokens
    as it has words. *)
Lemma wer_update_same p :
  _wer_update (Str p) (Str p) = (tensor 0, tensor (Py.len (Py.split p))).
Proof.
  unfold _wer_update. cbn [as_list Py.zip combine fold_left].
  rewrite WerFacts.step_eq. unfold pair_errors, pair_tokens. cbn [fst snd].
  rewrite HelperFacts.edit_distance_refl.
  destruct (Z.eq_dec (Py.len (Py.split p)) 0) as [->|N]; [reflexivity|].
  pose proof (PyFacts.len_nonneg (Py.split p)).
  pose proof (TorchFacts.tensor_is_pos (Py.len (Py.split p))) as P.
  destruct (tensor (Py.len (Py.split p))) as [| [] | | [] m e];
    try (discriminate P; lia); reflexivity.
Qed.

(** C7: the edit distance from a token sequence to itself is 0; hence, for
    every string [p] with at least one token, [word_error_rate(p, p)]
    returns 0, as for predictions = references = "a b c". *)
Theorem edit_distance_identity (X : list Py.str) (p : Py.str) :
  Helper._edit_distance X X = 0 /\
  (Py.split p <> [] -> word_error_rate (Str p) (Str p) = tensor 0).
Proof.
  split; [apply HelperFacts.edit_distance_refl|].
  intros Hp. unfold word_error_rate. rewrite wer_update_same.
  assert (0 < Py.len (Py.split p)) as Hlen
      by (unfold Py.len; destruct (Py.split p); [congruence|cbn; lia]).
  pose proof (TorchFacts.tensor_is_pos _ Hlen) as P.
  unfold _wer_compute.
  destruct (tensor (Py.len (Py.split p))) as [| [] | | [] m e];
    try discriminate P; reflexivity.
Qed.

Lemma edit_distance_identity_witness :
  Py.split "a b c" <> [] /\
  Helper._edit_distance ["a"; "b"; "c"] ["a"; "b"; "c"] = 0 /\
  word_error_rate (Str "a b c") (Str "a b c") = tensor 0.
Proof.
  assert (Py.split "a b c" <> []) as H by discriminate.
  split; [exact H|].
  destruct (edit_distance_identity ["a"; "b"; "c"] "a b c") as [H1 H2].
  split; [exact H1 | exact (H2 H)].
Defined.

(** C8: the deprecated alias [wer] forwards to [word_error_rate]: it
    returns the same value for every input, and all it adds is one
    [DeprecationWarning]. *)
Theorem wer_forwards (ps rs : StrOrList) :
  fst (wer ps rs) = word_error_rate ps rs /\
  snd (wer ps rs)
  = [("`wer` was renamed to `word_error_rate` in v0.7 and it will be removed in v0.8",
      DeprecationWarning)].
Proof. split; reflexivity. Qed.

(** C9: the rate can exceed 1: predictions = ["a b c"] against references =
    ["a"] gives 2 errors over 1 reference token, a rate of 2.  The errors of
    a pair are bounded by the longer of its two token sequences, while the
    denominator counts the reference tokens only. *)
Theorem word_error_rate_exceeds_one :
  (exists ps rs, ltb (tensor 1) (word_error_rate ps rs) = true) /\
  (let rate := word_error_rate (Lst ["a b c"]) (Lst ["a"]) in
   represents rate (inject_Z 2) /\ ltb (tensor 1) rate = true) /\
  (forall A B,
      Helper._edit_distance A B <= Z.max (Py.len A) (Py.len B)) /\
  (forall pr, pair_tokens pr = Py.len (Py.split (snd pr))).
Proof.
  split; [exists (Lst ["a b c"]), (Lst ["a"]); vm_compute; reflexivity|].
  split; [split; vm_compute; reflexivity|].
  split; [apply HelperFacts.edit_distance_le_max|reflexivity].
Qed.

(** C10: a string made of whitespace only splits into no token, so two such
    strings score like two empty strings: zero errors, zero reference
    tokens, and the rate of [word_error_rate("", "")]. *)
Theorem word_error_rate_whitespace_only (p r : Py.str) :
  Py.whitespace_only p = true -> Py.whitespace_only r = true ->
  Py.split p = [] /\ Py.split r = [] /\
  _wer_update (Str p) (Str r) = (tensor 0, tensor 0) /\
  _wer_update (Str p) (Str r) = _wer_update (Str "") (Str "") /\
  word_error_rate (Str p) (Str r) = word_error_rate (Str "") (Str "").
Proof.
  intros Hp Hr.
  apply PyFacts.split_whitespace_only in Hp, Hr.
  assert (_wer_update (Str p) (Str r) = (tensor 0, tensor 0)) as Hu.
  { unfold _wer_update. cbn [as_list Py.zip combine fold_left].
    rewrite WerFacts.step_eq. unfold pair_errors, pair_tokens. cbn [fst snd].
    rewrite Hp, Hr. reflexivity. }
  unfold word_error_rate. rewrite Hu. repeat split; assumption.
Qed.

Lemma word_error_rate_whitespace_only_witness :
  let p := String (ascii_of_nat 9) "  " in
  let r := String (ascii_of_nat 10) (String (ascii_of_nat 160) " ") in
  Py.whitespace_only p = true /\ Py.whitespace_only r = true /\
  _wer_update (Str p) (Str r) = (tensor 0, tensor 0) /\
  word_error_rate (Str p) (Str r) = word_error_rate (Str "") (Str "").
Proof.
  intros p r.
  assert (Py.whitespace_only p = true) as Hp by reflexivity.
  assert (Py.whitespace_only r = true) as Hr by reflexivity.
  split; [exact Hp|]. split; [exact Hr|].
  destruct (word_error_rate_whitespace_only p r Hp Hr) as (_ & _ & Hu & _ & Hw).
  split; [exact Hu | exact Hw].
Defined.

(* ------------------------------------------------------------------ *)
(** ** Signs and magnitudes of binary32 results *)

Module TorchSigns.

Import Torch.
Local Open Scope Z_scope.

Lemma shr_m_of_loc m l : shr_m (shr_record_of_loc m l) = m.
Proof. destruct l as [|[]]; reflexivity. Qed.

Lemma shr_m_shr_nonneg mrs e n :
  0 <= shr_m mrs -> 0 <= shr_m (fst (shr mrs e n)).
Proof.
  intros H. destruct n as [| k | k]; cbn [shr fst]; try assumption.
  rewrite TorchFacts.shr_m_iter by assumption.
  apply Z.div_pos; [assumption|]. apply Z.pow_pos_nonneg; lia.
Qed.

(** Rounding a non-negative mantissa with a clear sign bit never yields a
    NaN or a negative value. *)
Lemma binary_round_aux_nonneg m e l :
  0 <= m -> is_nonneg (binary_round_aux prec emax false m e l) = true.
Proof.
  intros Hm. unfold binary_round_aux, shr_fexp.
  pose proof (shr_m_shr_nonneg (shr_record_of_loc m l) e
                (fexp prec emax (Zdigits2 m + e) - e)) as H1.
  rewrite shr_m_of_loc in H1. specialize (H1 Hm).
  destruct (shr (shr_record_of_loc m l) e _) as [mrs' e']. cbn [fst] in H1.
  pose proof (TorchFacts.round_nearest_even_bounds (shr_m mrs') (loc_of_shr_record mrs')) as R.
  set (m2 := round_nearest_even (shr_m mrs') (loc_of_shr_record mrs')) in *.
  pose proof (shr_m_shr_nonneg (shr_record_of_loc m2 loc_Exact) e'
                (fexp prec emax (Zdigits2 m2 + e') - e')) as H2.
  rewrite shr_m_of_loc in H2. specialize (H2 ltac:(lia)).
  destruct (shr (shr_record_of_loc m2 loc_Exact) e' _) as [mrs'' e''].
  cbn [fst] in H2. destruct (shr_m mrs'') as [| q | q]; try lia.
  - reflexivity.
  - destruct (e'' <=? emax - prec); reflexivity.
Qed.

Lemma binary_round_nonneg m e :
  is_nonneg (binary_round prec emax false m e) = true.
Proof.
  unfold binary_round. destruct (shl_align m e _) as [mz ez].
  apply binary_round_aux_nonneg. lia.
Qed.

Lemma is_pos_nonneg x : is_pos x = true -> is_nonneg x = true.
Proof. destruct x as [[]|[]| |[] m e]; intros H; try discriminate H; reflexivity. Qed.

Lemma tensor_nonneg n : 0 <= n -> is_nonneg (tensor n) = true.
Proof.
  intros H. destruct (Z.eq_dec n 0) as [->|N]; [reflexivity|].
  apply is_pos_nonneg, TorchFacts.tensor_is_pos. lia.
Qed.

Lemma add_nonneg x y :
  is_nonneg x = true -> is_nonneg y = true -> is_nonneg (add x y) = true.
Proof.
  destruct x as [[]|[]| |[] mx ex]; intros Hx; try discriminate Hx;
    destruct y as [[]|[]| |[] my ey]; intros Hy; try discriminate Hy;
    try reflexivity.
  unfold add, SFadd. cbn [cond_Zopp]. rewrite <- Pos2Z.inj_add.
  cbn [binary_normalize]. apply binary_round_nonneg.
Qed.

Lemma div_finite_nonneg mx ex my ey :
  is_nonneg (div (S754_finite false mx ex) (S754_finite false my ey)) = true.
Proof.
  unfold div, SFdiv, SFdiv_core_binary.
  set (m' := match _ with Zpos _ => _ | Z0 => _ | Zneg _ => _ end).
  assert (0 <= m') as Hm'.
  { unfold m'. destruct (_ - _ - _) as [| s | s]; try lia.
    apply Z.shiftl_nonneg. lia. }
  pose proof (Z.div_pos m' (Zpos my) Hm' ltac:(lia)) as Hq.
  unfold Z.div in Hq. destruct (Z.div_eucl m' (Zpos my)) as [q r].
  cbn [xorb]. apply binary_round_aux_nonneg. assumption.
Qed.

(** A quotient of two non-negative values is NaN or non-negative. *)
Lemma div_nonneg x y :
  is_nonneg x = true -> is_nonneg y = true ->
  is_nan (div x y) || is_nonneg (div x y) = true.
Proof.
  destruct x as [[]|[]| |[] mx ex]; intros Hx; try discriminate Hx;
    destruct y as [[]|[]| |[] my ey]; intros Hy; try discriminate Hy;
    try reflexivity.
  rewrite div_finite_nonneg. apply orb_true_r.
Qed.

(** Dividing by a positive finite value never yields a NaN. *)
Lemma div_by_finite_nonneg x m e :
  is_nonneg x = true ->
  is_nonneg (div x (S754_finite false m e)) = true.
Proof.
  destruct x as [[]|[]| |[] mx ex]; intros Hx; try discriminate Hx;
    try reflexivity.
  apply div_finite_nonneg.
Qed.

(** *** Values of at least one *)

Lemma finite_or_inf_ge_one m e :
  digits m = 24 -> -23 <= e ->
  ge_one (if e <=? emax - prec then S754_finite false m e
          else S754_infinity false) = true.
Proof.
  intros D L. destruct (Z.leb_spec e (emax - prec)) as [H|H]; [|reflexivity].
  unfold emax, prec in H. cbn [ge_one]. rewrite D.
  apply andb_true_iff; split; [apply andb_true_iff; split|];
    [reflexivity | apply Z.leb_le | apply Z.leb_le]; lia.
Qed.

Lemma digits_ge_24 p : 2 ^ 23 <= Zpos p -> 24 <= digits p.
Proof.
  intros H. destruct (TorchFacts.digits_bounds p) as [_ Hhi].
  pose proof (TorchFacts.digits_pos p).
  assert (23 < digits p); [|lia]. apply (Z.pow_lt_mono_r_iff 2); lia.
Qed.

(** Rounding a mantissa of 24 digits or more keeps 24 digits, or
    overflows to [+inf]. *)
Lemma binary_round_large M ez :
  24 <= digits M -> -23 <= ez ->
  ge_one (binary_round prec emax false M ez) = true.
Proof.
  intros Hd Hz. destruct (TorchFacts.digits_bounds M) as [Hlo Hhi].
  unfold binary_round. fold (digits M).
  rewrite TorchFacts.fexp_normal by lia. unfold shl_align.
  destruct (digits M + ez - 24 - ez) as [| k | k] eqn:Ek; try lia.
  - assert (digits M = 24) as D by lia. unfold binary_round_aux.
    rewrite TorchFacts.shr_fexp_canon by lia.
    cbn [shr_m loc_of_shr_record round_nearest_even].
    rewrite TorchFacts.shr_fexp_canon by lia. cbn [shr_m].
    apply finite_or_inf_ge_one; lia.
  - unfold binary_round_aux, shr_fexp at 1. cbn [Zdigits2 shr_record_of_loc].
    fold (digits M). rewrite TorchFacts.fexp_normal, Ek by lia. unfold shr at 1.
    set (mrs := iter_pos shr_1 k (Build_shr_record (Zpos M) false false)).
    assert (0 < 2 ^ Zpos k) as Pk by (apply Z.pow_pos_nonneg; lia).
    assert (2 ^ 23 <= shr_m mrs < 2 ^ 24) as [B1 B2].
    { unfold mrs. rewrite TorchFacts.shr_m_iter by (cbn; lia). cbn [shr_m].
      replace (digits M - 1) with (Zpos k + 23) in Hlo by lia.
      replace (digits M) with (Zpos k + 24) in Hhi by lia.
      rewrite Z.pow_add_r in Hlo, Hhi by lia. split.
      - apply Z.div_le_lower_bound; lia.
      - apply Z.div_lt_upper_bound; lia. }
    pose proof (TorchFacts.round_nearest_even_bounds
                  (shr_m mrs) (loc_of_shr_record mrs)) as R.
    destruct (round_nearest_even (shr_m mrs) (loc_of_shr_record mrs))
      as [| q | q]; try lia.
    destruct (Z.eq_dec (Zpos q) (2 ^ 24)) as [E|N].
    + change (2 ^ 24) with (Zpos 16777216) in E. injection E as ->.
      unfold shr_fexp. cbn [Zdigits2 shr_record_of_loc].
      change (Zpos (digits2_pos 16777216)) with 25.
      rewrite TorchFacts.fexp_normal by lia.
      replace (25 + (ez + Zpos k) - 24 - (ez + Zpos k)) with 1 by lia.
      cbn [shr iter_pos shr_1 shr_m orb].
      apply finite_or_inf_ge_one; [reflexivity|lia].
    + assert (digits q = 24) as D by (apply TorchFacts.digits_unique; lia).
      rewrite TorchFacts.shr_fexp_canon by lia. cbn [shr_m].
      apply finite_or_inf_ge_one; lia.
Qed.

(** A positive [int] converts to a value of at least one. *)
Lemma tensor_ge_one n : 0 < n -> ge_one (tensor n) = true.
Proof.
  intros Hn. destruct n as [| p | p]; try lia.
  destruct (Z_le_gt_dec 24 (digits p)) as [Hd|Hd].
  - apply (binary_round_large p 0); lia.
  - destruct (TorchFacts.digits_bounds p) as [_ Hhi].
    assert (2 ^ digits p <= 2 ^ 24) by (apply Z.pow_le_mono_r; lia).
    destruct (TorchFacts.tensor_canon (Zpos p)) as (m & e & E & D & B & _); [lia|].
    rewrite E. cbn [ge_one]. rewrite D.
    apply andb_true_iff; split; [apply andb_true_iff; split|];
      [reflexivity | apply Z.leb_le | apply Z.leb_le]; lia.
Qed.

Lemma ge_one_cases x :
  ge_one x = true ->
  x = S754_infinity false \/
  exists m e, x = S754_finite false m e /\ digits m = 24 /\ -23 <= e <= 104.
Proof.
  destruct x as [[]|[]| |[] m e]; intros H; try discriminate H.
  - left; reflexivity.
  - right. exists m, e. cbn [ge_one] in H.
    apply andb_true_iff in H as [H H3]. apply andb_true_iff in H as [H1 H2].
    apply Z.eqb_eq in H1. apply Z.leb_le in H2, H3. repeat split; assumption.
Qed.

Lemma add_ge_one x y :
  ge_one x = true -> ge_one y = true -> ge_one (add x y) = true.
Proof.
  intros Hx Hy.
  destruct (ge_one_cases x Hx) as [->|(mx & ex & -> & Dx & Bx)];
    destruct (ge_one_cases y Hy) as [->|(my & ey & -> & Dy & By)];
    try reflexivity.
  unfold add, SFadd. cbn [cond_Zopp]. rewrite <- Pos2Z.inj_add.
  cbn [binary_normalize].
  apply binary_round_large; [|lia].
  apply digits_ge_24. rewrite Pos2Z.inj_add.
  rewrite (TorchFacts.shl_align_Z mx ex (Z.min ex ey)) by lia.
  destruct (TorchFacts.digits_bounds mx) as [Lx _]. rewrite Dx in Lx.
  change (2 ^ (24 - 1)) with (2 ^ 23) in Lx.
  assert (0 < 2 ^ (ex - Z.min ex ey)) by (apply Z.pow_pos_nonneg; lia).
  nia.
Qed.

Lemma add_zero_tensor n : 0 <= n -> add (tensor 0) (tensor n) = tensor n.
Proof.
  intros H. destruct (Z.eq_dec n 0) as [->|N]; [reflexivity|].
  destruct (ge_one_cases (tensor n) (tensor_ge_one n ltac:(lia)))
    as [->|(m & e & -> & _)]; reflexivity.
Qed.

Lemma add_ge_one_tensor x n :
  ge_one x = true -> 0 <= n -> ge_one (add x (tensor n)) = true.
Proof.
  intros Hx Hn. destruct (Z.eq_dec n 0) as [->|N].
  - destruct (ge_one_cases x Hx) as [->|(m & e & -> & _)]; exact Hx.
  - apply add_ge_one; [assumption|]. apply tensor_ge_one. lia.
Qed.

Lemma div_zero_ge_one x : ge_one x = true -> div (tensor 0) x = tensor 0.
Proof.
  intros H. destruct (ge_one_cases x H) as [->|(m & e & -> & _)]; reflexivity.
Qed.

(** A normal value divided by itself is exactly one. *)
Lemma div_self m e :
  div (S754_finite false m e) (S754_finite false m e) = tensor 1.
Proof.
  unfold div, SFdiv, SFdiv_core_binary.
  replace (Zdigits2 (Zpos m) + e - (Zdigits2 (Zpos m) + e)) with 0 by lia.
  replace (e - e) with 0 by lia.
  change (Z.min (fexp prec emax 0) 0) with (-24).
  change (0 - -24) with 24. cbv iota.
  rewrite Z.shiftl_mul_pow2 by lia.
  pose proof (Z.div_mul (2 ^ 24) (Zpos m) ltac:(lia)) as Hq.
  pose proof (Z.mod_mul (2 ^ 24) (Zpos m) ltac:(lia)) as Hr.
  rewrite (Z.mul_comm (2 ^ 24)) in Hq, Hr.
  unfold Z.div in Hq. unfold Z.modulo in Hr.
  destruct (Z.div_eucl (Zpos m * 2 ^ 24) (Zpos m)) as [q r]. subst q r.
  assert (new_location (Zpos m) 0 = loc_Exact) as ->.
  { unfold new_location, new_location_even, new_location_odd.
    destruct (Z.even (Zpos m)); reflexivity. }
  reflexivity.
Qed.

End TorchSigns.

(* ------------------------------------------------------------------ *)
(** ** More about [str.split] *)

Module SplitFacts.

Import Py.
Local Open Scope string_scope.

Lemma split_from_whitespace w : forall cur,
    whitespace_only w = true -> split_from cur w = flush cur [].
Proof.
  induction w as [|c w IH]; intros cur H; [reflexivity|].
  cbn [whitespace_only] in H. apply andb_true_iff in H as [Hc Hw].
  cbn [split_from]. rewrite Hc, (IH EmptyString Hw). reflexivity.
Qed.

(** Trailing whitespace adds no token. *)
Lemma split_from_app_whitespace s w : forall cur,
    whitespace_only w = true -> split_from cur (s ++ w) = split_from cur s.
Proof.
  induction s as [|c s IH]; intros cur H.
  - cbn [append]. rewrite split_from_whitespace by assumption. reflexivity.
  - cbn [append split_from]. rewrite !IH by assumption. reflexivity.
Qed.

(** Leading whitespace adds no token. *)
Lemma split_whitespace_app w s :
  whitespace_only w = true -> split (w ++ s) = split s.
Proof.
  unfold split. induction w as [|c w IH]; intros H; [reflexivity|].
  cbn [whitespace_only] in H. apply andb_true_iff in H as [Hc Hw].
  cbn [append split_from]. rewrite Hc. cbn [flush]. apply IH, Hw.
Qed.

Lemma split_padded w1 s w2 :
  whitespace_only w1 = true -> whitespace_only w2 = true ->
  split (w1 ++ s ++ w2) = split s.
Proof.
  intros H1 H2. rewrite split_whitespace_app by assumption.
  apply split_from_app_whitespace, H2.
Qed.

Lemma no_space_snoc cur c :
  no_space cur = true -> isspace c = false ->
  no_space (cur ++ String c EmptyString) = true.
Proof.
  intros Hcur Hc. induction cur as [|d cur IH]; cbn [append no_space] in *.
  - rewrite Hc. reflexivity.
  - apply andb_true_iff in Hcur as [Hd Hcur]. rewrite Hd, IH by assumption.
    reflexivity.
Qed.

Lemma snoc_not_empty cur c : cur ++ String c EmptyString <> EmptyString.
Proof. destruct cur; discriminate. Qed.

Lemma flush_words cur rest :
  no_space cur = true -> Forall (fun t => is_word t = true) rest ->
  Forall (fun t => is_word t = true) (flush cur rest).
Proof.
  intros Hcur Hrest. destruct cur as [|c cur]; [exact Hrest|].
  cbn [flush]. constructor; [exact Hcur|exact Hrest].
Qed.

Lemma split_from_words s : forall cur,
    no_space cur = true -> Forall (fun t => is_word t = true) (split_from cur s).
Proof.
  induction s as [|c s IH]; intros cur Hcur; cbn [split_from].
  - apply flush_words; [assumption|constructor].
  - destruct (isspace c) eqn:Hc.
    + apply flush_words; [assumption|]. apply IH. reflexivity.
    + apply IH, no_space_snoc; assumption.
Qed.

End SplitFacts.

(* ------------------------------------------------------------------ *)
(** ** Invariants of the loop of [_wer_update] *)

Module WerInvariants.

Import Torch Wer.
Local Open Scope Z_scope.

(** Both accumulators keep a clear sign bit and never become NaN. *)
Lemma fold_step_nonneg b : forall e t,
    is_nonneg e = true -> is_nonneg t = true ->
    is_nonneg (fst (fold_left step b (e, t))) = true /\
    is_nonneg (snd (fold_left step b (e, t))) = true.
Proof.
  induction b as [|pr b IH]; intros e t He Ht; [split; assumption|].
  cbn [fold_left]. rewrite WerFacts.step_eq.
  apply IH; apply TorchSigns.add_nonneg; try assumption;
    apply TorchSigns.tensor_nonneg.
  - apply WerFacts.pair_errors_nonneg.
  - apply WerFacts.pair_tokens_nonneg.
Qed.

(** The total is a function of the references alone. *)
Lemma snd_fold_step b : forall e t,
    snd (fold_left step b (e, t))
    = fold_left (fun t r => iadd_int t (Py.len (Py.split r))) (map snd b) t.
Proof.
  induction b as [|pr b IH]; intros e t; [reflexivity|].
  cbn [fold_left map]. rewrite WerFacts.step_eq. apply IH.
Qed.

Lemma map_snd_zip {A B} (xs : list A) (ys : list B) :
  map snd (Py.zip xs ys) = firstn (List.length xs) ys.
Proof.
  unfold Py.zip. revert ys.
  induction xs as [|x xs IH]; intros [|y ys]; cbn; try reflexivity.
  rewrite IH. reflexivity.
Qed.

(** Within [exact_limit] reference tokens the total is exact, whatever the
    error count does. *)
Lemma fold_total_exact b : forall e t,
    0 <= t -> t + sum_tokens b <= exact_limit ->
    snd (fold_left step b (e, tensor t)) = tensor (t + sum_tokens b).
Proof.
  unfold exact_limit.
  induction b as [|pr b IH]; intros e t Ht B.
  - cbn. rewrite Z.add_0_r. reflexivity.
  - pose proof (WerFacts.pair_tokens_nonneg pr).
    pose proof (WerFacts.sum_tokens_nonneg b).
    unfold sum_tokens in *. cbn [map sum_Z] in *.
    cbn [fold_left]. rewrite WerFacts.step_eq, (TorchFacts.add_exact t) by lia.
    rewrite IH by lia. rewrite Z.add_assoc. reflexivity.
Qed.

(** Once at least one, the total stays at least one. *)
Lemma fold_total_ge_one b : forall e t,
    ge_one t = true -> ge_one (snd (fold_left step b (e, t))) = true.
Proof.
  induction b as [|pr b IH]; intros e t Ht; [exact Ht|].
  cbn [fold_left]. rewrite WerFacts.step_eq. apply IH.
  apply TorchSigns.add_ge_one_tensor; [assumption|].
  apply WerFacts.pair_tokens_nonneg.
Qed.

(** One reference token is enough for a total of at least one. *)
Lemma fold_total_positive b : forall e,
    0 < sum_tokens b ->
    ge_one (snd (fold_left step b (e, tensor 0))) = true.
Proof.
  induction b as [|pr b IH]; intros e H.
  - cbn in H. lia.
  - pose proof (WerFacts.pair_tokens_nonneg pr) as Hp.
    unfold sum_tokens in *. cbn [map sum_Z] in H.
    cbn [fold_left]. rewrite WerFacts.step_eq.
    rewrite TorchSigns.add_zero_tensor by assumption.
    destruct (Z.eq_dec (pair_tokens pr) 0) as [E|N].
    + rewrite E. apply IH. lia.
    + apply fold_total_ge_one, TorchSigns.tensor_ge_one. lia.
Qed.

(** The loop reads its strings through [split] only. *)
Lemma step_same_tokens acc pr pr' :
  same_tokens pr pr' -> step acc pr = step acc pr'.
Proof.
  intros [Hp Hr]. destruct acc as [e t], pr as [p r], pr' as [p' r'].
  cbn [fst snd] in *. unfold step. rewrite Hp, Hr. reflexivity.
Qed.

Lemma fold_same_tokens b b' :
  Forall2 same_tokens b b' ->
  forall acc, fold_left step b acc = fold_left step b' acc.
Proof.
  induction 1 as [|pr pr' b b' Hpr _ IH]; intros acc; [reflexivity|].
  cbn [fold_left]. rewrite (step_same_tokens acc pr pr' Hpr). apply IH.
Qed.

(** A pair without any token leaves non-negative accumulators as they are. *)
Lemma step_no_tokens e t pr :
  is_nonneg e = true -> is_nonneg t = true ->
  Py.split (fst pr) = [] -> Py.split (snd pr) = [] ->
  step (e, t) pr = (e, t).
Proof.
  intros He Ht Hp Hr. rewrite WerFacts.step_eq.
  unfold pair_errors, pair_tokens. rewrite Hp, Hr.
  change (tensor (Helper._edit_distance [] [])) with (tensor 0).
  change (tensor (Py.len (@nil Py.str))) with (tensor 0).
  destruct e as [[]|[]| |[] me ee]; try discriminate He;
    destruct t as [[]|[]| |[] mt et]; try discriminate Ht; reflexivity.
Qed.

End WerInvariants.

(* ------------------------------------------------------------------ *)
(** ** Further properties of the metric *)

(** X1: an empty list of predictions, or an empty list of references, makes
    the loop run zero times, and the rate is 0/0 = NaN whatever the other
    argument holds. *)
Theorem word_error_rate_empty_batch (x : StrOrList) :
  word_error_rate (Lst []) x = S754_nan /\
  word_error_rate x (Lst []) = S754_nan.
Proof.
  split; unfold word_error_rate, _wer_update, Py.zip; cbn [as_list].
  - reflexivity.
  - rewrite combine_nil. reflexivity.
Qed.

(** X2: the total of reference tokens does not depend on what the
    predictions say, only on how many there are. *)
Theorem wer_update_total_ignores_predictions (ps ps' rs : list Py.str) :
  List.length ps = List.length ps' ->
  snd (_wer_update (Lst ps) (Lst rs)) = snd (_wer_update (Lst ps') (Lst rs)).
Proof.
  intros H. unfold _wer_update. cbn [as_list].
  rewrite !WerInvariants.snd_fold_step, !WerInvariants.map_snd_zip, H.
  reflexivity.
Qed.

Lemma wer_update_total_ignores_predictions_witness :
  let ps := ["a b c"; ""] in
  let ps' := ["x"; "y z"] in
  let rs := ["a b"; "c d e"] in
  List.length ps = List.length ps' /\
  snd (_wer_update (Lst ps) (Lst rs)) = snd (_wer_update (Lst ps') (Lst rs)).
Proof.
  intros ps ps' rs.
  assert (List.length ps = List.length ps') as H by reflexivity.
  split; [exact H|].
  exact (wer_update_total_ignores_predictions ps ps' rs H).
Defined.

(** X3: whatever the input, [word_error_rate] returns NaN or a value with
    a clear sign bit: never a negative number, [-0.] or [-inf]. *)
Theorem word_error_rate_never_negative (ps rs : StrOrList) :
  is_nan (word_error_rate ps rs) || is_nonneg (word_error_rate ps rs) = true.
Proof.
  unfold word_error_rate, _wer_update, _wer_compute.
  destruct (WerInvariants.fold_step_nonneg
              (Py.zip (as_list ps) (as_list rs)) (tensor 0) (tensor 0)
              eq_refl eq_refl) as [He Ht].
  destruct (fold_left step _ _) as [errors total]. cbn [fst snd] in *.
  apply TorchSigns.div_nonneg; assumption.
Qed.

(** X4: when the scored pairs hold between 1 and [2^24] reference tokens,
    the rate is a non-negative value or [+inf], and in particular not NaN,
    however many errors there are. *)
Theorem word_error_rate_defined (ps rs : StrOrList) :
  0 < sum_tokens (Py.zip (as_list ps) (as_list rs)) <= exact_limit ->
  is_nonneg (word_error_rate ps rs) = true.
Proof.
  intros [Hpos Hle]. unfold word_error_rate, _wer_update, _wer_compute.
  set (b := Py.zip (as_list ps) (as_list rs)) in *.
  destruct (WerInvariants.fold_step_nonneg b (tensor 0) (tensor 0)
              eq_refl eq_refl) as [He _].
  pose proof (WerInvariants.fold_total_exact b (tensor 0) 0
                ltac:(lia) ltac:(lia)) as Ht.
  destruct (fold_left step b _) as [errors total]. cbn [fst snd] in *.
  subst total. rewrite Z.add_0_l.
  destruct (TorchFacts.tensor_canon (sum_tokens b)) as (m & e & E & _).
  { unfold exact_limit in Hle. lia. }
  rewrite E. apply TorchSigns.div_by_finite_nonneg, He.
Qed.

Lemma word_error_rate_defined_witness :
  let ps := Lst ["a b c d e"] in
  let rs := Lst ["x"] in
  0 < sum_tokens (Py.zip (as_list ps) (as_list rs)) <= exact_limit /\
  is_nonneg (word_error_rate ps rs) = true.
Proof.
  intros ps rs.
  assert (0 < sum_tokens (Py.zip (as_list ps) (as_list rs)) <= exact_limit)
    as H by (split; [reflexivity | vm_compute; discriminate]).
  split; [exact H|]. exact (word_error_rate_defined ps rs H).
Defined.

(** X5: a batch with no edit error and at least one reference token scores
    exactly [0.], whatever its size. *)
Theorem word_error_rate_no_errors (ps rs : StrOrList) :
  sum_errors (Py.zip (as_list ps) (as_list rs)) = 0 ->
  0 < sum_tokens (Py.zip (as_list ps) (as_list rs)) ->
  word_error_rate ps rs = tensor 0.
Proof.
  intros He Ht. unfold word_error_rate, _wer_update, _wer_compute.
  set (b := Py.zip (as_list ps) (as_list rs)) in *.
  pose proof (fold_step_no_errors b (tensor 0) He) as Ee.
  pose proof (WerInvariants.fold_total_positive b (tensor 0) Ht) as Pt.
  destruct (fold_left step b _) as [errors total]. cbn [fst snd] in *.
  subst errors. apply TorchSigns.div_zero_ge_one, Pt.
Qed.

Lemma word_error_rate_no_errors_witness :
  let ps := Lst ["the  cat"; " sat"] in
  let rs := Lst ["the cat"; "sat "] in
  sum_errors (Py.zip (as_list ps) (as_list rs)) = 0 /\
  0 < sum_tokens (Py.zip (as_list ps) (as_list rs)) /\
  word_error_rate ps rs = tensor 0.
Proof.
  intros ps rs.
  assert (sum_errors (Py.zip (as_list ps) (as_list rs)) = 0) as H1 by reflexivity.
  assert (0 < sum_tokens (Py.zip (as_list ps) (as_list rs))) as H2 by reflexivity.
  split; [exact H1|]. split; [exact H2|].
  exact (word_error_rate_no_errors ps rs H1 H2).
Defined.

(** X6: when the number of edit errors equals the number of reference
    tokens, between 1 and [2^24], the rate is exactly [1.]. *)
Theorem word_error_rate_all_errors (ps rs : StrOrList) :
  sum_errors (Py.zip (as_list ps) (as_list rs))
  = sum_tokens (Py.zip (as_list ps) (as_list rs)) ->
  0 < sum_tokens (Py.zip (as_list ps) (as_list rs)) <= exact_limit ->
  word_error_rate ps rs = tensor 1 /\
  represents (word_error_rate ps rs) (inject_Z 1).
Proof.
  intros Heq [Hpos Hle].
  assert (word_error_rate ps rs = tensor 1) as H.
  { unfold word_error_rate, _wer_update, _wer_compute.
    set (b := Py.zip (as_list ps) (as_list rs)) in *.
    rewrite (WerFacts.fold_step_exact b 0 0) by lia.
    rewrite !Z.add_0_l, Heq.
    destruct (TorchFacts.tensor_canon (sum_tokens b)) as (m & e & E & _).
    { unfold exact_limit in Hle. lia. }
    rewrite E. apply TorchSigns.div_self. }
  split; [exact H|]. rewrite H. reflexivity.
Qed.

Lemma word_error_rate_all_errors_witness :
  let ps := Lst [""; "x y"] in
  let rs := Lst ["a b c"; "p q"] in
  sum_errors (Py.zip (as_list ps) (as_list rs))
  = sum_tokens (Py.zip (as_list ps) (as_list rs)) /\
  0 < sum_tokens (Py.zip (as_list ps) (as_list rs)) <= exact_limit /\
  word_error_rate ps rs = tensor 1.
Proof.
  intros ps rs.
  assert (sum_errors (Py.zip (as_list ps) (as_list rs))
          = sum_tokens (Py.zip (as_list ps) (as_list rs))) as H1 by reflexivity.
  assert (0 < sum_tokens (Py.zip (as_list ps) (as_list rs)) <= exact_limit)
    as H2 by (split; [reflexivity | vm_compute; discriminate]).
  split; [exact H1|]. split; [exact H2|].
  exact (proj1 (word_error_rate_all_errors ps rs H1 H2)).
Defined.

(** X7: the score depends on the strings only through their tokens: two
    batches whose pairs have the same prediction tokens and the same
    reference tokens, position by position, get the same accumulators and
    the same rate. *)
Theorem word_error_rate_same_tokens (b b' : batch) :
  Forall2 same_tokens b b' ->
  _wer_update (predictions_of b) (references_of b)
  = _wer_update (predictions_of b') (references_of b') /\
  word_error_rate (predictions_of b) (references_of b)
  = word_error_rate (predictions_of b') (references_of b').
Proof.
  intros H.
  assert (_wer_update (predictions_of b) (references_of b)
          = _wer_update (predictions_of b') (references_of b')) as E.
  { unfold _wer_update, predictions_of, references_of. cbn [as_list].
    rewrite !WerFacts.zip_batch. apply WerInvariants.fold_same_tokens, H. }
  split; [exact E|]. unfold word_error_rate. rewrite E. reflexivity.
Qed.

Lemma word_error_rate_same_tokens_witness :
  let b := [("the  cat", "a cat"); (" sat", "sat down ")] in
  let b' := [("the cat", " a  cat"); ("sat", "sat down")] in
  Forall2 same_tokens b b' /\
  word_error_rate (predictions_of b) (references_of b)
  = word_error_rate (predictions_of b') (references_of b').
Proof.
  intros b b'.
  assert (Forall2 same_tokens b b') as H
      by (repeat constructor).
  split; [exact H|]. exact (proj2 (word_error_rate_same_tokens b b' H)).
Defined.

(** X8: whitespace before and after a prediction or a reference never
    changes the score. *)
Theorem word_error_rate_ignores_padding (p r w1 w2 w3 w4 : Py.str) :
  Py.whitespace_only w1 = true -> Py.whitespace_only w2 = true ->
  Py.whitespace_only w3 = true -> Py.whitespace_only w4 = true ->
  word_error_rate (Str (w1 ++ p ++ w2)) (Str (w3 ++ r ++ w4))
  = word_error_rate (Str p) (Str r).
Proof.
  intros H1 H2 H3 H4. unfold word_error_rate, _wer_update.
  cbn [as_list Py.zip combine fold_left].
  rewrite (WerInvariants.step_same_tokens _ (w1 ++ p ++ w2, w3 ++ r ++ w4) (p, r));
    [reflexivity|].
  split; cbn [fst snd]; apply SplitFacts.split_padded; assumption.
Qed.

Lemma word_error_rate_ignores_padding_witness :
  let tab := String (ascii_of_nat 9) "" in
  let nl := String (ascii_of_nat 10) "" in
  Py.whitespace_only "  " = true /\ Py.whitespace_only tab = true /\
  Py.whitespace_only "" = true /\ Py.whitespace_only nl = true /\
  word_error_rate (Str ("  " ++ "a b" ++ tab)) (Str ("" ++ "a c" ++ nl))
  = word_error_rate (Str "a b") (Str "a c").
Proof.
  intros tab nl.
  assert (Py.whitespace_only "  " = true) as H1 by reflexivity.
  assert (Py.whitespace_only tab = true) as H2 by reflexivity.
  assert (Py.whitespace_only "" = true) as H3 by reflexivity.
  assert (Py.whitespace_only nl = true) as H4 by reflexivity.
  split; [exact H1|]. split; [exact H2|]. split; [exact H3|]. split; [exact H4|].
  exact (word_error_rate_ignores_padding "a b" "a c" "  " tab "" nl H1 H2 H3 H4).
Defined.

Lemma sum_Z_app l l' : sum_Z (l ++ l')%list = sum_Z l + sum_Z l'.
Proof. induction l as [|z l IH]; cbn [sum_Z app]; [reflexivity|lia]. Qed.

(** X9: accumulating composes: while the totals of the concatenated batch
    stay within [2^24], scoring [b1 ++ b2] in one call gives, component by
    component, the binary32 sum of the accumulators of [b1] and of [b2]. *)
Theorem wer_update_concat (b1 b2 : batch) :
  sum_errors (b1 ++ b2)%list <= exact_limit ->
  sum_tokens (b1 ++ b2)%list <= exact_limit ->
  let u1 := _wer_update (predictions_of b1) (references_of b1) in
  let u2 := _wer_update (predictions_of b2) (references_of b2) in
  _wer_update (predictions_of (b1 ++ b2)%list) (references_of (b1 ++ b2)%list)
  = (add (fst u1) (fst u2), add (snd u1) (snd u2)).
Proof.
  intros He Ht u1 u2. unfold u1, u2.
  pose proof (WerFacts.sum_errors_nonneg b1). pose proof (WerFacts.sum_errors_nonneg b2).
  pose proof (WerFacts.sum_tokens_nonneg b1). pose proof (WerFacts.sum_tokens_nonneg b2).
  assert (sum_errors (b1 ++ b2)%list = sum_errors b1 + sum_errors b2) as Ee
      by (unfold sum_errors; rewrite map_app; apply sum_Z_app).
  assert (sum_tokens (b1 ++ b2)%list = sum_tokens b1 + sum_tokens b2) as Et
      by (unfold sum_tokens; rewrite map_app; apply sum_Z_app).
  rewrite !WerFacts.update_batch_exact by lia.
  cbn [fst snd]. unfold exact_limit in *.
  rewrite !TorchFacts.add_exact by lia. rewrite Ee, Et. reflexivity.
Qed.

Lemma wer_update_concat_witness :
  let b1 := [("a b", "a c"); ("d", "d e f")] in
  let b2 := [("g h", "g")] in
  sum_errors (b1 ++ b2)%list <= exact_limit /\
  sum_tokens (b1 ++ b2)%list <= exact_limit /\
  _wer_update (predictions_of (b1 ++ b2)%list) (references_of (b1 ++ b2)%list)
  = (add (fst (_wer_update (predictions_of b1) (references_of b1)))
         (fst (_wer_update (predictions_of b2) (references_of b2))),
     add (snd (_wer_update (predictions_of b1) (references_of b1)))
         (snd (_wer_update (predictions_of b2) (references_of b2)))).
Proof.
  intros b1 b2.
  assert (sum_errors (b1 ++ b2)%list <= exact_limit) as H1
      by (vm_compute; discriminate).
  assert (sum_tokens (b1 ++ b2)%list <= exact_limit) as H2
      by (vm_compute; discriminate).
  split; [exact H1|]. split; [exact H2|].
  exact (wer_update_concat b1 b2 H1 H2).
Defined.

(** X10: the denominator is [0.] exactly when the scored pairs hold no
    reference token; with at least one it is a value of at least 1 (or
    [+inf]), so only a batch without reference tokens divides by zero. *)
Theorem wer_update_total_zero_iff (ps rs : StrOrList) :
  (snd (_wer_update ps rs) = tensor 0
   <-> sum_tokens (Py.zip (as_list ps) (as_list rs)) = 0) /\
  (0 < sum_tokens (Py.zip (as_list ps) (as_list rs)) ->
   ge_one (snd (_wer_update ps rs)) = true).
Proof.
  unfold _wer_update. set (b := Py.zip (as_list ps) (as_list rs)).
  pose proof (WerFacts.sum_tokens_nonneg b) as Hn.
  split; [split|].
  - intros E. destruct (Z.eq_dec (sum_tokens b) 0) as [|N]; [assumption|].
    pose proof (WerInvariants.fold_total_positive b (tensor 0) ltac:(lia)) as P.
    rewrite E in P. discriminate P.
  - apply fold_step_no_tokens.
  - apply WerInvariants.fold_total_positive.
Qed.

Lemma wer_update_total_zero_iff_witness :
  0 < sum_tokens (Py.zip (as_list (Str "")) (as_list (Str "a b"))) /\
  ge_one (snd (_wer_update (Str "") (Str "a b"))) = true.
Proof.
  assert (0 < sum_tokens (Py.zip (as_list (Str "")) (as_list (Str "a b")))) as H
      by reflexivity.
  split; [exact H|].
  exact (proj2 (wer_update_total_zero_iff (Str "") (Str "a b")) H).
Defined.

(** X11: pairs without any token on either side (empty or whitespace-only
    strings) can be dropped from a batch, wherever they stand, without
    changing the accumulators or the rate. *)
Theorem wer_update_skips_tokenless_pairs (b1 b2 : batch) (p r : Py.str) :
  Py.whitespace_only p = true -> Py.whitespace_only r = true ->
  _wer_update (predictions_of (b1 ++ (p, r) :: b2)%list)
              (references_of (b1 ++ (p, r) :: b2)%list)
  = _wer_update (predictions_of (b1 ++ b2)%list) (references_of (b1 ++ b2)%list) /\
  word_error_rate (predictions_of (b1 ++ (p, r) :: b2)%list)
                  (references_of (b1 ++ (p, r) :: b2)%list)
  = word_error_rate (predictions_of (b1 ++ b2)%list) (references_of (b1 ++ b2)%list).
Proof.
  intros Hp Hr.
  assert (_wer_update (predictions_of (b1 ++ (p, r) :: b2)%list)
                      (references_of (b1 ++ (p, r) :: b2)%list)
          = _wer_update (predictions_of (b1 ++ b2)%list)
                        (references_of (b1 ++ b2)%list)) as E.
  { unfold _wer_update, predictions_of, references_of. cbn [as_list].
    rewrite !WerFacts.zip_batch, !fold_left_app. cbn [fold_left].
    destruct (WerInvariants.fold_step_nonneg b1 (tensor 0) (tensor 0)
                eq_refl eq_refl) as [He Ht].
    destruct (fold_left step b1 _) as [e t]. cbn [fst snd] in *.
    rewrite WerInvariants.step_no_tokens; try assumption; try reflexivity;
      cbn [fst snd]; apply PyFacts.split_whitespace_only; assumption. }
  split; [exact E|]. unfold word_error_rate. rewrite E. reflexivity.
Qed.

Lemma wer_update_skips_tokenless_pairs_witness :
  let b1 := [("a b", "a c")] in
  let b2 := [("d", "d e")] in
  Py.whitespace_only "  " = true /\ Py.whitespace_only "" = true /\
  word_error_rate (predictions_of (b1 ++ ("  ", "") :: b2)%list)
                  (references_of (b1 ++ ("  ", "") :: b2)%list)
  = word_error_rate (predictions_of (b1 ++ b2)%list) (references_of (b1 ++ b2)%list).
Proof.
  intros b1 b2.
  assert (Py.whitespace_only "  " = true) as H1 by reflexivity.
  assert (Py.whitespace_only "" = true) as H2 by reflexivity.
  split; [exact H1|]. split; [exact H2|].
  exact (proj2 (wer_update_skips_tokenless_pairs b1 b2 "  " "" H1 H2)).
Defined.

(** X12: every token the loop hands to the edit distance and counts in the
    total is a word: it has at least one character and no whitespace. *)
Theorem split_yields_words (s : Py.str) :
  Forall (fun t => Py.is_word t = true) (Py.split s).
Proof. apply SplitFacts.split_from_words. reflexivity. Qed.
